(** * LifeSupportSD: a shallow embedding of the data-logger sketch

    The sketch [LifeSupportSD.ino] polls six sensors every five seconds and
    prints one CSV record piece by piece to the serial console and to
    [datalog.csv] on an SD card, switching the SPI hardware on around the
    card accesses and off again for the OneWire probe.

    The embedding keeps the shape of the sketch.  [setup] and [loop] are
    programs of a small monad: they read and write the three [static]
    globals and leave one event for every call that reaches the hardware,
    in the order of the calls.  What the hardware answers (sensor readings,
    error codes, whether [SD.open] succeeds) is the input of a pass.  The
    state of the devices (SPI switch, console text, file text, time spent
    in [delay]) is read off the event sequence.

    A program either runs to its end or reaches a statement whose behaviour
    C leaves undefined: [loop] formats into the 12 bytes of [tempBuffer],
    and a text that does not fit is written past the end of the array.
    From there on nothing is known, so the events of such a run are those
    up to that statement. *)

From Stdlib Require Import ZArith List String Ascii Bool Lia.
From Stdlib Require Import Numbers.DecimalString Numbers.DecimalPos Floats.SpecFloat.
Import ListNotations.

Open Scope string_scope.
Open Scope Z_scope.

(** ** Text helpers *)

Fixpoint replicate (n : nat) (c : ascii) : string :=
  match n with
  | O => ""
  | S k => String c (replicate k c)
  end.

(** Right-justify [s] in a field of [width] characters, filling with [c]. *)
Definition pad_left (width : nat) (c : ascii) (s : string) : string :=
  replicate (width - String.length s) c ++ s.

Definition pad_right (width : nat) (c : ascii) (s : string) : string :=
  s ++ replicate (width - String.length s) c.

(** ** Integers as the AVR target has them *)

Definition to_uint16 (n : Z) : Z := n mod 65536.

(** Unsigned decimal digits of a non-negative number. *)
Definition digits (n : Z) : string :=
  NilEmpty.string_of_uint (N.to_uint (Z.to_N n)).

(** [Print::print] of an [int] or an [unsigned int]: plain decimal, a minus
    sign for negative values, no padding. *)
Definition print_dec (n : Z) : string :=
  if n <? 0 then "-" ++ digits (- n) else digits n.

(** [printf]'s [%0<width>d]: the sign first, then zeros up to the width. *)
Definition fmt_0d (width : nat) (n : Z) : string :=
  if n <? 0 then "-" ++ pad_left (width - 1) "0" (digits (- n))
  else pad_left width "0" (digits n).

(** ** Floating-point values

    [float] and [double] are both IEEE binary32 on the AVR target.  A value
    is a [spec_float]: a signed zero, an infinity, NaN, or [(-1)^s * m * 2^e]. *)

Definition float := spec_float.

Definition f32_prec : Z := 24.
Definition f32_emax : Z := 128.

(** The binary32 value nearest to [num / den]; used to write literals. *)
Definition f32_of_ratio (num den : Z) : float :=
  SFdiv f32_prec f32_emax
    (binary_normalize f32_prec f32_emax num 0 false)
    (binary_normalize f32_prec f32_emax den 0 false).

Definition f32_of_Z (n : Z) : float :=
  binary_normalize f32_prec f32_emax n 0 false.

Definition isnan (x : float) : bool :=
  match x with
  | S754_nan => true
  | _ => false
  end.

(** C's [==] on floats: NaN equals nothing, the two zeros are equal. *)
Definition float_eq (x y : float) : bool := SFeqb x y.

(** *** [dtostrf] of avr-libc

    [dtostrf(val, width, prec, buf)] writes [val] as [-]d.ddd with [prec]
    digits after the point, right-justified with blanks in a field of at
    least [width] characters (left-justified when [width] is negative); NaN
    and the infinities are written NAN and INF.  The function belongs to the
    C library, not to the sketch: it is modelled from its documentation,
    rounding the exact value to nearest with ties away from zero. *)

(** [|val| * 10^prec] rounded to an integer, for [|val| = m * 2^e]. *)
Definition scaled (m : positive) (e : Z) (prec : nat) : Z :=
  let num := Zpos m * 10 ^ Z.of_nat prec in
  if 0 <=? e then num * 2 ^ e
  else (2 * num + 2 ^ (- e)) / (2 * 2 ^ (- e)).

Definition fixed (q : Z) (prec : nat) : string :=
  let unit := 10 ^ Z.of_nat prec in
  digits (q / unit) ++
  match prec with
  | O => ""
  | _ => "." ++ pad_left prec "0" (digits (q mod unit))
  end.

Definition sign_text (s : bool) : string := if s then "-" else "".

Definition dtostrf_body (val : float) (prec : nat) : string :=
  match val with
  | S754_nan => "NAN"
  | S754_infinity s => sign_text s ++ "INF"
  | S754_zero s => sign_text s ++ fixed 0 prec
  | S754_finite s m e => sign_text s ++ fixed (scaled m e prec) prec
  end.

Definition dtostrf (val : float) (width : Z) (prec : nat) : string :=
  if width <? 0 then pad_right (Z.to_nat (- width)) " " (dtostrf_body val prec)
  else pad_left (Z.to_nat width) " " (dtostrf_body val prec).

(** Modelled from the spec: the header [DallasTemperature.h] that defines the
    macro [DEVICE_DISCONNECTED_C] is not part of the sources; the spec gives
    the disconnected sentinel of the probe as -127.0. *)
Definition DEVICE_DISCONNECTED_C : float := f32_of_Z (-127).

(** ** What the sketch does to the outside world

    Every call that touches the hardware leaves one event.  The devices
    (SPI switch, console, card file, LED, elapsed time) are read off the
    event sequence by the observers further down. *)

Inductive sensor := DHT22 | UVM30A | MS5611 | DS1307 | DS18B20 | SCD41.

Inductive event :=
| Sense (dev : sensor)          (* a read or command sent to a sensor *)
| SpiBegin                      (* SPI.begin() *)
| SpiEnd                        (* SPI.end() *)
| SdBegin (ok : bool)           (* SD.begin(cs) *)
| SdExists (found : bool)       (* SD.exists(name) *)
| SdOpen (ok : bool)            (* SD.open(name, mode) *)
| FilePrint (s : string)        (* dataFile.print(s) *)
| FileClose                     (* dataFile.close() *)
| SerialPrint (s : string)      (* Serial.print(s) *)
| LedWrite (high : bool)        (* digitalWrite(LED_PIN, level) *)
| Delay (ms : Z).               (* delay(ms) *)

(** The [static] globals that hold the last known SCD41 values. *)
Record globals := mkGlobals {
  scd4x_co2 : Z;       (* uint16_t *)
  scd4x_temp : float;
  scd4x_hum : float
}.

(** Their initialisers. *)
Definition globals_init : globals :=
  mkGlobals 0 (S754_zero false) (S754_zero false).

(** How a program ends: at its end, with a value, the globals and the
    events it left; or at a statement with undefined behaviour, with the
    globals and the events up to there. *)
Inductive outcome (A : Type) :=
| Done (a : A) (g : globals) (evs : list event)
| Undefined (g : globals) (evs : list event).
Arguments Done {A} a g evs.
Arguments Undefined {A} g evs.

(** Programs: they read and update the globals and emit events. *)
Definition M (A : Type) : Type := globals -> outcome A.

Definition ret {A} (a : A) : M A := fun g => Done a g [].

Definition bind {A B} (p : M A) (k : A -> M B) : M B :=
  fun g =>
    match p g with
    | Done a g1 w1 =>
        match k a g1 with
        | Done b g2 w2 => Done b g2 (w1 ++ w2)%list
        | Undefined g2 w2 => Undefined g2 (w1 ++ w2)%list
        end
    | Undefined g1 w1 => Undefined g1 w1
    end.

Notation "x <- p ;; k" := (bind p (fun x => k))
  (at level 61, p at next level, right associativity).
Notation "p ;; k" := (bind p (fun _ => k))
  (at level 61, right associativity).

Definition emit (e : event) : M unit := fun g => Done tt g [e].
Definition get : M globals := fun g => Done g g [].
Definition put (g : globals) : M unit := fun _ => Done tt g [].

(** The events of a run: all of them, or those before the undefined
    statement. *)
Definition events_of {A} (p : M A) (g : globals) : list event :=
  match p g with
  | Done _ _ evs => evs
  | Undefined _ evs => evs
  end.

(** The globals where the run ends or where it stops being defined. *)
Definition globals_after {A} (p : M A) (g : globals) : globals :=
  match p g with
  | Done _ g' _ => g'
  | Undefined g' _ => g'
  end.

(** Whether the run reaches the end of the program. *)
Definition finishes {A} (p : M A) (g : globals) : bool :=
  match p g with
  | Done _ _ _ => true
  | Undefined _ _ => false
  end.

Definition when (b : bool) (p : M unit) : M unit := if b then p else ret tt.

Fixpoint repeat_M (n : nat) (p : M unit) : M unit :=
  match n with
  | O => ret tt
  | S k => p ;; repeat_M k p
  end.

(** *** Arduino primitives *)

Definition crlf : string := String "013" (String "010" "").

Definition Serial_print (s : string) : M unit := emit (SerialPrint s).
Definition Serial_println (s : string) : M unit :=
  Serial_print s ;; Serial_print crlf.
Definition File_print (s : string) : M unit := emit (FilePrint s).
Definition File_println (s : string) : M unit :=
  File_print s ;; File_print crlf.
(** [println()] without an argument: the line ending alone. *)
Definition Serial_newline : M unit := Serial_print crlf.
Definition File_newline : M unit := File_print crlf.
Definition File_close : M unit := emit FileClose.
Definition SPI_begin : M unit := emit SpiBegin.
Definition SPI_end : M unit := emit SpiEnd.
Definition SD_begin (ok : bool) : M bool := emit (SdBegin ok) ;; ret ok.
Definition SD_exists (found : bool) : M bool := emit (SdExists found) ;; ret found.
Definition SD_open (ok : bool) : M bool := emit (SdOpen ok) ;; ret ok.
Definition digitalWrite_LED (high : bool) : M unit := emit (LedWrite high).
Definition delay (ms : Z) : M unit := emit (Delay ms).

(** *** The conversion buffer *)

(** Size of the buffer [loop] declares for the conversions. *)
Definition tempBuffer_size : nat := 12.

(** Storing a text and its terminating NUL in [char tempBuffer[12]]: what
    [sprintf] and [dtostrf] do with their result.  The text read back is
    the text stored; a text that does not fit runs over the array, which is
    undefined. *)
Definition to_tempBuffer (s : string) : M string :=
  fun g =>
    if (String.length s + 1 <=? tempBuffer_size)%nat then Done s g []
    else Undefined g [].

(** A sensor call: one event, and the value the hardware supplies. *)
Definition sense {A} (dev : sensor) (a : A) : M A := emit (Sense dev) ;; ret a.

(** *** The SCD41 driver

    A driver call returns an error code and hands its results back through
    reference parameters, which it writes only when it reports no error. *)

Inductive scd_reply (A : Type) :=
| ScdError (code : Z)
| ScdOk (a : A).
Arguments ScdError {A} code.
Arguments ScdOk {A} a.

Record measurement := mkMeasurement {
  m_co2 : Z;
  m_temp : float;
  m_hum : float
}.

(** [scd4x.getDataReadyStatus(isDataReady)]: the new value of the flag it is
    given, and the error code as stored in a [uint16_t]. *)
Definition scd4x_getDataReadyStatus (r : scd_reply bool) (isDataReady : bool)
  : M (Z * bool) :=
  emit (Sense SCD41) ;;
  match r with
  | ScdError code => ret (to_uint16 code, isDataReady)
  | ScdOk ready => ret (0, ready)
  end.

(** [scd4x.readMeasurement(scd4x_co2, scd4x_temp, scd4x_hum)]: the globals
    are the reference parameters. *)
Definition scd4x_readMeasurement (r : scd_reply measurement) : M Z :=
  emit (Sense SCD41) ;;
  match r with
  | ScdError code => ret (to_uint16 code)
  | ScdOk m => put (mkGlobals (m_co2 m) (m_temp m) (m_hum m)) ;; ret 0
  end.

(** [stopPeriodicMeasurement] and [startPeriodicMeasurement]: an error code
    only. *)
Definition scd4x_simple (code : Z) : M Z :=
  emit (Sense SCD41) ;; ret (to_uint16 code).

(** *** The clock *)

Record DateTime := mkDateTime {
  year : Z; month : Z; day : Z; hour : Z; minute : Z; second : Z
}.

(** The text of [sprintf(tempBuffer, "%04d-%02d-%02dT%02d:%02d:%02d", ...)] *)
Definition sprintf_timestamp (now : DateTime) : string :=
  fmt_0d 4 (year now) ++ "-" ++ fmt_0d 2 (month now) ++ "-" ++
  fmt_0d 2 (day now) ++ "T" ++ fmt_0d 2 (hour now) ++ ":" ++
  fmt_0d 2 (minute now) ++ ":" ++ fmt_0d 2 (second now).

(** [sprintf(tempBuffer, ...)] and [dtostrf(val, width, prec, tempBuffer)]
    as [loop] calls them. *)
Definition sprintf_tempBuffer (now : DateTime) : M string :=
  to_tempBuffer (sprintf_timestamp now).

Definition dtostrf_tempBuffer (val : float) (width : Z) (prec : nat) : M string :=
  to_tempBuffer (dtostrf val width prec).

Definition csv_header : string :=
  "Timestamp,DHT_Temp(C),DHT_Hum(%),UV_Raw,Press(mBar),Press_Temp(C),Press_Alt(Ft),Probe_Temp(C),CO2(ppm),SCD_Temp(C),SCD_Hum(%)".

(** ** [setup] *)

(** What the hardware answers during [setup]. *)
Record boot := mkBoot {
  serial_polls : nat;      (* how often [!Serial] held *)
  ms5611_found : bool;     (* MS5611.begin() *)
  rtc_found : bool;        (* rtc.begin() *)
  rtc_running : bool;      (* rtc.isrunning() *)
  scd_stop : Z;            (* scd4x.stopPeriodicMeasurement() *)
  scd_start : Z;           (* scd4x.startPeriodicMeasurement() *)
  card_found : bool;       (* SD.begin(SD_CS_PIN) *)
  log_found : bool;        (* SD.exists(filename) *)
  log_created : bool       (* SD.open(filename, FILE_WRITE) *)
}.

Definition setup (b : boot) : M unit :=
  (* Serial.begin; while (!Serial) delay(10) *)
  repeat_M (serial_polls b) (delay 10) ;;
  Serial_println "Combined Sensor Test Initializing..." ;;
  (* pinMode(LED_PIN, OUTPUT) *)
  digitalWrite_LED true ;;
  (* Wire.begin() *)
  Serial_println "Initializing DHT22..." ;;
  (* dht.begin() *)
  sense DHT22 tt ;;
  Serial_println "Initializing UV Sensor..." ;;
  (* pinMode(UVPIN, INPUT) *)
  Serial_println "Initializing MS5611 (Pressure)..." ;;
  found <- sense MS5611 (ms5611_found b) ;;
  (if found then Serial_println "MS5611 found."
   else Serial_println "MS5611 not found. Check wiring.") ;;
  Serial_println "Initializing DS1307 (RTC)..." ;;
  rtc_ok <- sense DS1307 (rtc_found b) ;;
  when (negb rtc_ok) (Serial_println "Couldn't find RTC! Check wiring.") ;;
  running <- sense DS1307 (rtc_running b) ;;
  when (negb running) (Serial_println "RTC is NOT running, setting time!") ;;
  Serial_println "Initializing SCD41 (CO2)..." ;;
  (* scd4x.begin(Wire, SCD41_I2C_ADDR) *)
  Serial_println "...SCD41 init done." ;;
  error <- scd4x_simple (scd_stop b) ;;
  when (negb (error =? 0))
    (Serial_print "Error stopping SCD41: " ;; Serial_println (print_dec error)) ;;
  error <- scd4x_simple (scd_start b) ;;
  when (negb (error =? 0))
    (Serial_print "Error starting SCD41: " ;; Serial_println (print_dec error)) ;;
  Serial_print "Initializing SD card..." ;;
  card <- SD_begin (card_found b) ;;
  (if negb card then Serial_println "...initialization failed!"
   else Serial_println "...initialization done.") ;;
  SPI_end ;;
  Serial_println "SPI hardware released." ;;
  Serial_println "Initializing DS18B20 (Temp Probe)..." ;;
  (* sensors.begin() *)
  sense DS18B20 tt ;;
  Serial_println "...DS18B20 init done." ;;
  Serial_println "All sensors initialized. Waiting 5s for SCD41..." ;;
  delay 5000 ;;
  SPI_begin ;;
  found <- SD_exists (log_found b) ;;
  (if negb found then
     Serial_println "Creating datalog.csv and writing headers..." ;;
     dataFile <- SD_open (log_created b) ;;
     if dataFile then
       File_println csv_header ;;
       File_close
     else Serial_println "Error creating datalog.csv"
   else Serial_println "datalog.csv already exists.") ;;
  SPI_end ;;
  Serial_println "Header check done, SPI released." ;;
  Serial_println csv_header.

(** ** [loop] *)

(** What the hardware answers during one pass of [loop]. *)
Record cycle_in := mkCycle {
  in_dht_h : float;                  (* dht.readHumidity() *)
  in_dht_t : float;                  (* dht.readTemperature() *)
  in_uv : Z;                         (* analogRead(UVPIN) *)
  in_press_mBar : float;             (* MS5611.getPressure() *)
  in_press_Temp : float;             (* MS5611.getTemperature() *)
  in_press_Alt : float;              (* MS5611.getAltitudeFeet() *)
  in_now : DateTime;                 (* rtc.now() *)
  in_probe : float;                  (* sensors.getTempCByIndex(0) *)
  in_ready : scd_reply bool;         (* scd4x.getDataReadyStatus *)
  in_meas : scd_reply measurement;   (* scd4x.readMeasurement *)
  in_open : bool                     (* SD.open(filename, O_APPEND | O_WRITE) *)
}.

Definition loop (i : cycle_in) : M unit :=
  (* 1. DHT22 *)
  dht_h <- sense DHT22 (in_dht_h i) ;;
  dht_t <- sense DHT22 (in_dht_t i) ;;
  (* 2. UV *)
  uvValue <- sense UVM30A (in_uv i) ;;
  (* 3. MS5611 *)
  sense MS5611 tt ;;
  let press_mBar := in_press_mBar i in
  let press_Temp := in_press_Temp i in
  let press_Alt := in_press_Alt i in
  (* 4. RTC *)
  now <- sense DS1307 (in_now i) ;;
  (* 5. DS18B20 *)
  sense DS18B20 tt ;;
  probe <- sense DS18B20 (in_probe i) ;;
  let probeTempC :=
    if float_eq probe DEVICE_DISCONNECTED_C then f32_of_Z (-127) else probe in
  (* 6. SCD41 *)
  status <- scd4x_getDataReadyStatus (in_ready i) false ;;
  let (error, isDataReady) := status in
  when (negb (error =? 0))
    (Serial_print "SCD4R_ERR:" ;; Serial_println (print_dec error)) ;;
  when isDataReady
    (error <- scd4x_readMeasurement (in_meas i) ;;
     if negb (error =? 0) then
       Serial_print "SCD4M_ERR:" ;; Serial_println (print_dec error)
     else
       g <- get ;;
       if scd4x_co2 g =? 0 then ret tt else ret tt) ;;
  (* 7. SPI back on for the card *)
  SPI_begin ;;
  dataFile <- SD_open (in_open i) ;;
  (* 8. the record, piece by piece *)
  (if dataFile then
     tempBuffer <- sprintf_tempBuffer now ;;
     Serial_print tempBuffer ;;
     File_print tempBuffer ;;
     (* DHT temperature *)
     Serial_print "," ;;
     File_print "," ;;
     (if isnan dht_t then
        Serial_print "NaN" ;;
        File_print "NaN"
      else
        tempBuffer <- dtostrf_tempBuffer dht_t 4 2 ;;
        Serial_print tempBuffer ;;
        File_print tempBuffer) ;;
     (* DHT humidity *)
     Serial_print "," ;;
     File_print "," ;;
     (if isnan dht_h then
        Serial_print "NaN" ;;
        File_print "NaN"
      else
        tempBuffer <- dtostrf_tempBuffer dht_h 4 2 ;;
        Serial_print tempBuffer ;;
        File_print tempBuffer) ;;
     (* UV *)
     Serial_print "," ;;
     File_print "," ;;
     Serial_print (print_dec uvValue) ;;
     File_print (print_dec uvValue) ;;
     (* pressure, its temperature, altitude *)
     Serial_print "," ;;
     File_print "," ;;
     (tempBuffer <- dtostrf_tempBuffer press_mBar 6 2 ;;
      Serial_print tempBuffer ;;
      File_print tempBuffer) ;;
     Serial_print "," ;;
     File_print "," ;;
     (tempBuffer <- dtostrf_tempBuffer press_Temp 4 2 ;;
      Serial_print tempBuffer ;;
      File_print tempBuffer) ;;
     Serial_print "," ;;
     File_print "," ;;
     (tempBuffer <- dtostrf_tempBuffer press_Alt 6 2 ;;
      Serial_print tempBuffer ;;
      File_print tempBuffer) ;;
     (* probe *)
     Serial_print "," ;;
     File_print "," ;;
     (tempBuffer <- dtostrf_tempBuffer probeTempC 4 2 ;;
      Serial_print tempBuffer ;;
      File_print tempBuffer) ;;
     (* SCD41 *)
     Serial_print "," ;;
     File_print "," ;;
     g <- get ;;
     Serial_print (print_dec (scd4x_co2 g)) ;;
     File_print (print_dec (scd4x_co2 g)) ;;
     Serial_print "," ;;
     File_print "," ;;
     (tempBuffer <- dtostrf_tempBuffer (scd4x_temp g) 4 2 ;;
      Serial_print tempBuffer ;;
      File_print tempBuffer) ;;
     Serial_print "," ;;
     File_print "," ;;
     (tempBuffer <- dtostrf_tempBuffer (scd4x_hum g) 4 2 ;;
      Serial_print tempBuffer ;;
      File_print tempBuffer) ;;
     (* end of line *)
     Serial_newline ;;
     File_newline ;;
     File_close ;;
     (* blink *)
     digitalWrite_LED false ;;
     delay 100 ;;
     digitalWrite_LED true ;;
     delay 4900
   else
     Serial_println "SD Open Fail" ;;
     delay 5000) ;;
  (* 9. SPI off again for OneWire *)
  SPI_end.

(** The sketch as the Arduino core runs it: [setup] once, then [loop] over
    and over; [cycles] lists what the hardware answers in each pass. *)
Fixpoint run (cycles : list cycle_in) : M unit :=
  match cycles with
  | [] => ret tt
  | i :: rest => loop i ;; run rest
  end.

Definition sketch (b : boot) (cycles : list cycle_in) : M unit :=
  setup b ;; run cycles.

(** ** Observers of an event sequence *)

(** Everything sent to the console, in order. *)
Fixpoint serial_text (evs : list event) : string :=
  match evs with
  | [] => ""
  | SerialPrint s :: rest => s ++ serial_text rest
  | _ :: rest => serial_text rest
  end.

(** Everything appended to the card file, in order. *)
Fixpoint file_text (evs : list event) : string :=
  match evs with
  | [] => ""
  | FilePrint s :: rest => s ++ file_text rest
  | _ :: rest => file_text rest
  end.

(** The same, print call by print call. *)
Fixpoint serial_pieces (evs : list event) : list string :=
  match evs with
  | [] => []
  | SerialPrint s :: rest => s :: serial_pieces rest
  | _ :: rest => serial_pieces rest
  end.

Fixpoint file_pieces (evs : list event) : list string :=
  match evs with
  | [] => []
  | FilePrint s :: rest => s :: file_pieces rest
  | _ :: rest => file_pieces rest
  end.

(** The arguments of the [delay] calls, in order, and their sum. *)
Fixpoint delays (evs : list event) : list Z :=
  match evs with
  | [] => []
  | Delay ms :: rest => ms :: delays rest
  | _ :: rest => delays rest
  end.

Definition slept (evs : list event) : Z := fold_right Z.add 0 (delays evs).

Fixpoint acquires (evs : list event) : nat :=
  match evs with
  | [] => O
  | SpiBegin :: rest => S (acquires rest)
  | _ :: rest => acquires rest
  end.

Fixpoint releases (evs : list event) : nat :=
  match evs with
  | [] => O
  | SpiEnd :: rest => S (releases rest)
  | _ :: rest => releases rest
  end.

Definition is_storage_op (e : event) : bool :=
  match e with
  | SdExists _ | SdOpen _ | FilePrint _ | FileClose => true
  | _ => false
  end.

Definition is_sensor_read (e : event) : bool :=
  match e with
  | Sense _ => true
  | _ => false
  end.

(** The SPI switch after an event; the card driver's [begin] starts the SPI
    hardware by itself. *)
Definition spi_step (on : bool) (e : event) : bool :=
  match e with
  | SpiBegin | SdBegin _ => true
  | SpiEnd => false
  | _ => on
  end.

Definition spi_after (on : bool) (evs : list event) : bool :=
  fold_left spi_step evs on.

(** Bus discipline: storage operations only while SPI is on, sensor reads
    only while it is off.  The result is the switch at the end, or [None]
    when an event broke the rule. *)
Fixpoint bus_check (on : bool) (evs : list event) : option bool :=
  match evs with
  | [] => Some on
  | e :: rest =>
      if is_storage_op e && negb on then None
      else if is_sensor_read e && on then None
      else bus_check (spi_step on e) rest
  end.

(** File-handle discipline: prints and [close] only on an open file, no
    second [open] while one is open.  The result tells whether the file is
    open at the end. *)
Fixpoint file_check (opened : bool) (evs : list event) : option bool :=
  match evs with
  | [] => Some opened
  | SdOpen ok :: rest => if opened then None else file_check ok rest
  | FilePrint _ :: rest => if opened then file_check opened rest else None
  | FileClose :: rest => if opened then file_check false rest else None
  | _ :: rest => file_check opened rest
  end.

(** The events from the first [SD.open] on. *)
Fixpoint from_open (evs : list event) : list event :=
  match evs with
  | [] => []
  | SdOpen ok :: rest => SdOpen ok :: rest
  | _ :: rest => from_open rest
  end.

(** What [loop] prints on the console from the open on. *)
Definition console_line (evs : list event) : string :=
  serial_text (from_open evs).

(** ** Scenario A *)

Definition scenarioA_time : DateTime := mkDateTime 2024 6 1 12 0 0.

Definition scenarioA_reading : measurement :=
  mkMeasurement 800 (f32_of_ratio 213 10) (f32_of_Z 41).

(** The readings of scenario A; the SCD41 part is left open. *)
Definition scenarioA (ready : scd_reply bool) (meas : scd_reply measurement)
  : cycle_in :=
  mkCycle (f32_of_Z 40) (f32_of_ratio 215 10) 123
          (f32_of_ratio 101325 100) (f32_of_Z 21) (f32_of_Z 150)
          scenarioA_time (f32_of_ratio 2075 100)
          ready meas true.


Definition scenarioA_line : string :=
  "2024-06-01T12:00:00,21.50,40.00,123,1013.25,21.00,150.00,20.75,800,21.30,41.00".


(** Scenario D: the readings of scenario A with the SCD41 not ready and
    the file not opening. *)
Definition scenarioD : cycle_in :=
  mkCycle (f32_of_Z 40) (f32_of_ratio 215 10) 123
          (f32_of_ratio 101325 100) (f32_of_Z 21) (f32_of_Z 150)
          scenarioA_time (f32_of_ratio 2075 100)
          (ScdOk false) (ScdError 0) false.

(** ** More observers *)

(** The LED level after an event. *)
Definition led_step (high : bool) (e : event) : bool :=
  match e with
  | LedWrite h => h
  | _ => high
  end.

Definition led_after (high : bool) (evs : list event) : bool :=
  fold_left led_step evs high.

(** Every [delay] with the LED level that holds during it. *)
Fixpoint led_during_delays (high : bool) (evs : list event) : list (bool * Z) :=
  match evs with
  | [] => []
  | LedWrite h :: rest => led_during_delays h rest
  | Delay ms :: rest => (high, ms) :: led_during_delays high rest
  | _ :: rest => led_during_delays high rest
  end.

(** The sensors addressed, in order. *)
Fixpoint sensed (evs : list event) : list sensor :=
  match evs with
  | [] => []
  | Sense dev :: rest => dev :: sensed rest
  | _ :: rest => sensed rest
  end.

(** The events before the first [SD.open]. *)
Fixpoint before_open (evs : list event) : list event :=
  match evs with
  | [] => []
  | SdOpen _ :: _ => []
  | e :: rest => e :: before_open rest
  end.

(** How many times [SD.open] was called. *)
Fixpoint opens (evs : list event) : nat :=
  match evs with
  | [] => O
  | SdOpen _ :: rest => S (opens rest)
  | _ :: rest => opens rest
  end.

(** The answers of [boot] with [Serial] ready at once. *)
Definition no_wait (b : boot) : boot :=
  mkBoot 0 (ms5611_found b) (rtc_found b) (rtc_running b) (scd_stop b)
         (scd_start b) (card_found b) (log_found b) (log_created b).

(** Calendar fields as a clock delivers them: a year of at most four
    digits, the other fields of at most two. *)
Definition plausible (now : DateTime) : Prop :=
  0 <= year now <= 9999 /\ 0 <= month now <= 99 /\ 0 <= day now <= 99 /\
  0 <= hour now <= 99 /\ 0 <= minute now <= 99 /\ 0 <= second now <= 99.

(** The SCD41 diagnostics a pass prints before it opens the file. *)
Definition scd_diagnostics (i : cycle_in) : string :=
  match in_ready i with
  | ScdError code =>
      if to_uint16 code =? 0 then ""
      else "SCD4R_ERR:" ++ print_dec (to_uint16 code) ++ crlf
  | ScdOk false => ""
  | ScdOk true =>
      match in_meas i with
      | ScdError code =>
          if to_uint16 code =? 0 then ""
          else "SCD4M_ERR:" ++ print_dec (to_uint16 code) ++ crlf
      | ScdOk _ => ""
      end
  end.

(** *** Reading a timestamp back *)

Definition digit_value (c : ascii) : option Z :=
  let n := Z.of_N (N_of_ascii c) in
  if (48 <=? n) && (n <=? 57) then Some (n - 48) else None.

Fixpoint parse_digits (acc : Z) (s : string) : option Z :=
  match s with
  | EmptyString => Some acc
  | String c rest =>
      match digit_value c with
      | Some d => parse_digits (10 * acc + d) rest
      | None => None
      end
  end.

Definition parse_field (start len : nat) (s : string) : option Z :=
  parse_digits 0 (substring start len s).

Definition parse_timestamp (s : string) : option DateTime :=
  match parse_field 0 4 s, parse_field 5 2 s, parse_field 8 2 s,
        parse_field 11 2 s, parse_field 14 2 s, parse_field 17 2 s with
  | Some y, Some mo, Some d, Some h, Some mi, Some se =>
      Some (mkDateTime y mo d h mi se)
  | _, _, _, _, _, _ => None
  end.

(** [fmt_0d w n] fills its field exactly and reads back as [n]. *)
Definition exact_width (w : nat) (n : Z) : bool :=
  (String.length (fmt_0d w n) =? w)%nat &&
  match parse_digits 0 (fmt_0d w n) with
  | Some v => v =? n
  | None => false
  end.

(** [f] holds for the [count] numbers from [from] on. *)
Fixpoint all_from (f : Z -> bool) (count : nat) (from : Z) : bool :=
  match count with
  | O => true
  | S k => f from && all_from f k (from + 1)
  end.

(** ** Evaluation

    The monad and the primitives are unfolded; the observers, the
    formatting and the writes to [tempBuffer] stay folded. *)

Arguments dtostrf : simpl never.
Arguments print_dec : simpl never.
Arguments sprintf_timestamp : simpl never.
Arguments to_uint16 : simpl never.
Arguments float_eq : simpl never.
Arguments f32_of_Z : simpl never.

Ltac unfold_prog :=
  cbv [loop setup run sketch bind ret emit get put when sense repeat_M
       Serial_print Serial_println Serial_newline File_print File_println
       File_newline File_close SPI_begin SPI_end SD_begin SD_exists SD_open
       digitalWrite_LED delay scd4x_getDataReadyStatus scd4x_readMeasurement
       scd4x_simple
       in_dht_h in_dht_t in_uv in_press_mBar in_press_Temp in_press_Alt in_now
       in_probe in_ready in_meas in_open scd4x_co2 scd4x_temp scd4x_hum
       m_co2 m_temp m_hum
       serial_polls ms5611_found rtc_found rtc_running scd_stop scd_start
       card_found log_found log_created no_wait
       app fst snd negb].

(** Case analysis on the tests a program branches on.  A hypothesis that
    the timestamp overruns [tempBuffer] settles the [sprintf]. *)
Ltac split_prog :=
  repeat match goal with
    | H : (forall now g, sprintf_tempBuffer now g = Undefined g [])
      |- context [sprintf_tempBuffer ?n ?g0] => rewrite (H n g0); unfold_prog
    | |- context [Z.eqb 0 0] => change (Z.eqb 0 0) with true; unfold_prog
    | |- context [Z.eqb ?c 0] => destruct (Z.eqb c 0) eqn:?; unfold_prog
    | |- context [isnan ?x] => destruct (isnan x) eqn:?; unfold_prog
    | |- context [float_eq ?x ?y] => destruct (float_eq x y) eqn:?; unfold_prog
    end.

(** Replace the run of a program in the goal by its outcome. *)
Ltac eval_prog :=
  match goal with
  | |- context [events_of ?p ?g] =>
      unfold events_of, globals_after, finishes;
      let r := fresh "r" in
      let E := fresh "E" in
      remember (p g) as r eqn:E; revert E;
      unfold_prog; split_prog; intro
  end.

(** * Properties *)

(** ** Texts *)

Section Texts.

Lemma append_nil_r (s : string) : s ++ "" = s.
Proof. induction s as [|c s IH]; simpl; [reflexivity | now rewrite IH]. Qed.

Lemma append_assoc (a b c : string) : (a ++ b) ++ c = a ++ b ++ c.
Proof. induction a as [|x a IH]; simpl; [reflexivity | now rewrite IH]. Qed.

Lemma length_append (a b : string) :
  String.length (a ++ b) = (String.length a + String.length b)%nat.
Proof. induction a as [|x a IH]; simpl; [reflexivity | now rewrite IH]. Qed.

Lemma length_replicate n c : String.length (replicate n c) = n.
Proof. induction n as [|n IH]; simpl; [reflexivity | now rewrite IH]. Qed.

Lemma length_pad_left w c s :
  String.length (pad_left w c s) = Nat.max w (String.length s).
Proof. unfold pad_left. rewrite length_append, length_replicate. lia. Qed.

End Texts.

(** ** The timestamp and the buffer *)

Section Formatting.

Lemma length_fmt_0d w n : (w <= String.length (fmt_0d w n))%nat.
Proof.
  unfold fmt_0d. destruct (n <? 0).
  - change (String.length ("-" ++ ?s)) with (S (String.length s)).
    simpl String.length. rewrite length_pad_left. lia.
  - rewrite length_pad_left. lia.
Qed.

(** X1.  The timestamp has at least 19 characters, so with its terminating
    NUL it does not fit the [tempBuffer_size] bytes of [tempBuffer]. *)
Remark timestamp_exceeds_tempBuffer now :
  (tempBuffer_size < String.length (sprintf_timestamp now) + 1)%nat.
Proof.
  unfold sprintf_timestamp, tempBuffer_size.
  rewrite !length_append. simpl String.length.
  pose proof (length_fmt_0d 4 (year now)). pose proof (length_fmt_0d 2 (month now)).
  pose proof (length_fmt_0d 2 (day now)). pose proof (length_fmt_0d 2 (hour now)).
  pose proof (length_fmt_0d 2 (minute now)). pose proof (length_fmt_0d 2 (second now)).
  lia.
Qed.

Lemma timestamp_length now : (19 <= String.length (sprintf_timestamp now))%nat.
Proof.
  unfold sprintf_timestamp.
  rewrite !length_append. simpl String.length.
  pose proof (length_fmt_0d 4 (year now)). pose proof (length_fmt_0d 2 (month now)).
  pose proof (length_fmt_0d 2 (day now)). pose proof (length_fmt_0d 2 (hour now)).
  pose proof (length_fmt_0d 2 (minute now)). pose proof (length_fmt_0d 2 (second now)).
  lia.
Qed.

(** The [sprintf] of [loop] always runs over [tempBuffer]. *)
Lemma sprintf_overflows now g : sprintf_tempBuffer now g = Undefined g [].
Proof.
  unfold sprintf_tempBuffer, to_tempBuffer.
  pose proof (timestamp_length now) as H.
  destruct (Nat.leb_spec (String.length (sprintf_timestamp now) + 1) tempBuffer_size)
    as [Hfit|_]; [|reflexivity].
  unfold tempBuffer_size in Hfit. lia.
Qed.

End Formatting.

(** ** Sequencing *)

Section Sequencing.

Context {B : Type}.
Variable p : M unit.
Variable k : unit -> M B.
Variable g : globals.

Lemma bind_finished :
  finishes p g = true ->
  events_of (bind p k) g =
    (events_of p g ++ events_of (k tt) (globals_after p g))%list /\
  globals_after (bind p k) g = globals_after (k tt) (globals_after p g) /\
  finishes (bind p k) g = finishes (k tt) (globals_after p g).
Proof.
  unfold events_of, globals_after, finishes, bind.
  destruct (p g) as [[] g1 w1|g1 w1]; [|discriminate].
  intros _. destruct (k tt g1); repeat split.
Qed.

Lemma bind_stopped :
  finishes p g = false ->
  events_of (bind p k) g = events_of p g /\
  globals_after (bind p k) g = globals_after p g /\
  finishes (bind p k) g = false.
Proof.
  unfold events_of, globals_after, finishes, bind.
  destruct (p g) as [[] g1 w1|g1 w1]; [discriminate|].
  intros _. repeat split.
Qed.

End Sequencing.

Lemma bind_after_done {A B} (p : M A) (k : A -> M B) g a w :
  p g = Done a g w ->
  bind p k g =
  match k a g with
  | Done b g2 w2 => Done b g2 (w ++ w2)%list
  | Undefined g2 w2 => Undefined g2 (w ++ w2)%list
  end.
Proof. intros H. unfold bind. now rewrite H. Qed.
(** ** Observers and concatenation *)

Section Concatenation.

Variables evs1 evs2 : list event.

Lemma delays_app : delays (evs1 ++ evs2) = (delays evs1 ++ delays evs2)%list.
Proof.
  induction evs1 as [|e l IH]; [reflexivity|].
  destruct e; simpl; now rewrite ?IH.
Qed.

Lemma slept_app : slept (evs1 ++ evs2) = slept evs1 + slept evs2.
Proof.
  unfold slept. rewrite delays_app.
  induction (delays evs1) as [|d l IH]; simpl; lia.
Qed.

Lemma acquires_app : acquires (evs1 ++ evs2) = (acquires evs1 + acquires evs2)%nat.
Proof.
  induction evs1 as [|e l IH]; [reflexivity|].
  destruct e; simpl; now rewrite ?IH.
Qed.

Lemma releases_app : releases (evs1 ++ evs2) = (releases evs1 + releases evs2)%nat.
Proof.
  induction evs1 as [|e l IH]; [reflexivity|].
  destruct e; simpl; now rewrite ?IH.
Qed.

Lemma opens_app : opens (evs1 ++ evs2) = (opens evs1 + opens evs2)%nat.
Proof.
  induction evs1 as [|e l IH]; [reflexivity|].
  destruct e; simpl; now rewrite ?IH.
Qed.

Lemma file_text_app : file_text (evs1 ++ evs2) = file_text evs1 ++ file_text evs2.
Proof.
  induction evs1 as [|e l IH]; [reflexivity|].
  destruct e; simpl; rewrite ?IH; try reflexivity.
  now rewrite append_assoc.
Qed.

Lemma serial_text_app :
  serial_text (evs1 ++ evs2) = serial_text evs1 ++ serial_text evs2.
Proof.
  induction evs1 as [|e l IH]; [reflexivity|].
  destruct e; simpl; rewrite ?IH; try reflexivity.
  now rewrite append_assoc.
Qed.

Lemma serial_pieces_app :
  serial_pieces (evs1 ++ evs2) = (serial_pieces evs1 ++ serial_pieces evs2)%list.
Proof.
  induction evs1 as [|e l IH]; [reflexivity|].
  destruct e; simpl; now rewrite ?IH.
Qed.

Lemma sensed_app : sensed (evs1 ++ evs2) = (sensed evs1 ++ sensed evs2)%list.
Proof.
  induction evs1 as [|e l IH]; [reflexivity|].
  destruct e; simpl; now rewrite ?IH.
Qed.

Lemma led_after_app high :
  led_after high (evs1 ++ evs2) = led_after (led_after high evs1) evs2.
Proof. apply fold_left_app. Qed.

Lemma spi_after_app on :
  spi_after on (evs1 ++ evs2) = spi_after (spi_after on evs1) evs2.
Proof. apply fold_left_app. Qed.

End Concatenation.

Lemma led_during_delays_app evs1 evs2 high :
  led_during_delays high (evs1 ++ evs2) =
  (led_during_delays high evs1 ++
   led_during_delays (led_after high evs1) evs2)%list.
Proof.
  revert high. induction evs1 as [|e l IH]; intros high; [reflexivity|].
  destruct e; simpl; now rewrite ?IH.
Qed.

Lemma file_check_app evs1 evs2 opened :
  file_check opened (evs1 ++ evs2) =
  match file_check opened evs1 with
  | Some opened' => file_check opened' evs2
  | None => None
  end.
Proof.
  revert opened. induction evs1 as [|e l IH]; intros opened; [reflexivity|].
  destruct e; simpl; try apply IH; destruct opened; auto.
Qed.

Lemma bus_check_app on evs1 evs2 :
  bus_check on (evs1 ++ evs2)%list =
  match bus_check on evs1 with
  | Some on' => bus_check on' evs2
  | None => None
  end.
Proof.
  revert on. induction evs1 as [|e evs1 IH]; intros on; [reflexivity|].
  simpl. destruct (is_storage_op e && negb on); [reflexivity|].
  destruct (is_sensor_read e && on); [reflexivity | apply IH].
Qed.

(** ** The timestamp *)

Section TimestampFacts.

Lemma all_from_spec f count from x :
  all_from f count from = true ->
  from <= x < from + Z.of_nat count -> f x = true.
Proof.
  revert from. induction count as [|k IH]; intros from Hall Hx; [lia|].
  simpl in Hall. apply andb_true_iff in Hall as [Hhere Hrest].
  destruct (Z.eq_dec x from) as [->|Hne]; [exact Hhere|].
  apply (IH (from + 1)); [exact Hrest | lia].
Qed.

Lemma exact_width_year : all_from (exact_width 4) (Z.to_nat 10000) 0 = true.
Proof. vm_compute. reflexivity. Qed.

Lemma exact_width_two : all_from (exact_width 2) (Z.to_nat 100) 0 = true.
Proof. vm_compute. reflexivity. Qed.

Lemma fmt_0d_exact w bound n :
  all_from (exact_width w) (Z.to_nat bound) 0 = true ->
  0 <= n < bound ->
  String.length (fmt_0d w n) = w /\ parse_digits 0 (fmt_0d w n) = Some n.
Proof.
  intros Hall Hn.
  assert (H : exact_width w n = true).
  { apply (all_from_spec _ _ _ _ Hall). rewrite Z2Nat.id; lia. }
  unfold exact_width in H.
  apply andb_true_iff in H as [Hlen Hval].
  apply Nat.eqb_eq in Hlen. split; [exact Hlen|].
  destruct (parse_digits 0 (fmt_0d w n)) as [v|]; [|discriminate].
  apply Z.eqb_eq in Hval. now subst v.
Qed.

Lemma four_chars s :
  String.length s = 4%nat ->
  exists a b c d, s = String a (String b (String c (String d ""))).
Proof.
  destruct s as [|a [|b [|c [|d [|e s]]]]]; try discriminate.
  intros _. now exists a, b, c, d.
Qed.

Lemma two_chars s :
  String.length s = 2%nat -> exists a b, s = String a (String b "").
Proof.
  destruct s as [|a [|b [|c s]]]; try discriminate.
  intros _. now exists a, b.
Qed.

Lemma year_shape y :
  0 <= y <= 9999 ->
  exists a b c d,
    fmt_0d 4 y = String a (String b (String c (String d ""))) /\
    parse_digits 0 (String a (String b (String c (String d "")))) = Some y.
Proof.
  intros Hy.
  destruct (fmt_0d_exact 4 10000 y exact_width_year) as [Hlen Hval]; [lia|].
  destruct (four_chars _ Hlen) as (a & b & c & d & E).
  exists a, b, c, d. split; [exact E | now rewrite <- E].
Qed.

Lemma two_shape n :
  0 <= n <= 99 ->
  exists a b,
    fmt_0d 2 n = String a (String b "") /\
    parse_digits 0 (String a (String b "")) = Some n.
Proof.
  intros Hn.
  destruct (fmt_0d_exact 2 100 n exact_width_two) as [Hlen Hval]; [lia|].
  destruct (two_chars _ Hlen) as (a & b & E).
  exists a, b. split; [exact E | now rewrite <- E].
Qed.

Lemma timestamp_round_trip now :
  plausible now -> parse_timestamp (sprintf_timestamp now) = Some now.
Proof.
  intros (Hy & Hmo & Hd & Hh & Hmi & Hs).
  destruct (year_shape _ Hy) as (y1 & y2 & y3 & y4 & Ey & Py).
  destruct (two_shape _ Hmo) as (mo1 & mo2 & Emo & Pmo).
  destruct (two_shape _ Hd) as (d1 & d2 & Ed & Pd).
  destruct (two_shape _ Hh) as (h1 & h2 & Eh & Ph).
  destruct (two_shape _ Hmi) as (mi1 & mi2 & Emi & Pmi).
  destruct (two_shape _ Hs) as (s1 & s2 & Es & Ps).
  unfold sprintf_timestamp. rewrite Ey, Emo, Ed, Eh, Emi, Es.
  unfold parse_timestamp, parse_field.
  cbn [append substring].
  rewrite Py, Pmo, Pd, Ph, Pmi, Ps.
  destruct now; reflexivity.
Qed.

End TimestampFacts.

(** X2.  For calendar fields of at most four (year) and two digits, the
    timestamp has exactly 19 characters, with the separators of
    YYYY-MM-DDTHH:MM:SS at their fixed places; with the terminating NUL
    [sprintf] writes 20 bytes. *)
Theorem timestamp_fixed_width (now : DateTime) :
  plausible now ->
  let ts := sprintf_timestamp now in
  String.length ts = 19%nat /\
  String.get 4 ts = Some "-"%char /\ String.get 7 ts = Some "-"%char /\
  String.get 10 ts = Some "T"%char /\
  String.get 13 ts = Some ":"%char /\ String.get 16 ts = Some ":"%char /\
  (String.length ts + 1 = 20)%nat.
Proof.
  intros (Hy & Hmo & Hd & Hh & Hmi & Hs) ts. subst ts.
  destruct (year_shape _ Hy) as (y1 & y2 & y3 & y4 & Ey & _).
  destruct (two_shape _ Hmo) as (mo1 & mo2 & Emo & _).
  destruct (two_shape _ Hd) as (d1 & d2 & Ed & _).
  destruct (two_shape _ Hh) as (h1 & h2 & Eh & _).
  destruct (two_shape _ Hmi) as (mi1 & mi2 & Emi & _).
  destruct (two_shape _ Hs) as (s1 & s2 & Es & _).
  unfold sprintf_timestamp. rewrite Ey, Emo, Ed, Eh, Emi, Es.
  repeat split.
Qed.

Lemma timestamp_fixed_width_witness :
  plausible scenarioA_time /\
  String.length (sprintf_timestamp scenarioA_time) = 19%nat.
Proof.
  assert (H : plausible scenarioA_time) by (unfold plausible; simpl; lia).
  exact (conj H (proj1 (timestamp_fixed_width scenarioA_time H))).
Defined.

(** X3.  Two plausible clock readings with the same timestamp are the same
    reading: the timestamp loses nothing of the date and time. *)
Theorem timestamp_injective (now1 now2 : DateTime) :
  plausible now1 -> plausible now2 ->
  sprintf_timestamp now1 = sprintf_timestamp now2 -> now1 = now2.
Proof.
  intros H1 H2 E.
  pose proof (timestamp_round_trip now1 H1) as R1.
  rewrite E, (timestamp_round_trip now2 H2) in R1. congruence.
Qed.

Lemma timestamp_injective_witness :
  plausible scenarioA_time /\
  (sprintf_timestamp scenarioA_time = sprintf_timestamp scenarioA_time ->
   scenarioA_time = scenarioA_time).
Proof.
  assert (H : plausible scenarioA_time) by (unfold plausible; simpl; lia).
  exact (conj H (timestamp_injective scenarioA_time scenarioA_time H H)).
Defined.

(** ** [setup] *)

Section SetupFacts.

(** The wait for [Serial] is [polls] delays of 10 ms and nothing else. *)
Lemma wait_run n g : repeat_M n (delay 10) g = Done tt g (repeat (Delay 10) n).
Proof.
  induction n as [|n IH]; [reflexivity|].
  change (repeat_M (S n) (delay 10) g)
    with (match repeat_M n (delay 10) g with
          | Done b g2 w2 => Done b g2 ([Delay 10] ++ w2)%list
          | Undefined g2 w2 => Undefined g2 ([Delay 10] ++ w2)%list
          end).
  now rewrite IH.
Qed.

Lemma setup_run b g :
  setup b g =
  match setup (no_wait b) g with
  | Done a g' evs => Done a g' (repeat (Delay 10) (serial_polls b) ++ evs)
  | Undefined g' evs => Undefined g' (repeat (Delay 10) (serial_polls b) ++ evs)
  end.
Proof.
  destruct b as [polls ms rtc running stop start card found created].
  unfold setup, no_wait.
  cbn [serial_polls ms5611_found rtc_found rtc_running scd_stop scd_start
       card_found log_found log_created].
  rewrite (bind_after_done _ _ g _ _ (wait_run polls g)).
  rewrite (bind_after_done _ _ g _ _ (wait_run 0 g)).
  match goal with |- match ?x with Done _ _ _ => _ | Undefined _ _ => _ end = _ =>
    destruct x end; reflexivity.
Qed.

Lemma setup_events b g :
  events_of (setup b) g =
  (repeat (Delay 10) (serial_polls b) ++ events_of (setup (no_wait b)) g)%list.
Proof.
  unfold events_of. rewrite (setup_run b g).
  destruct (setup (no_wait b) g); reflexivity.
Qed.

Lemma wait_is_silent n :
  serial_pieces (repeat (Delay 10) n) = [] /\
  file_text (repeat (Delay 10) n) = "" /\
  opens (repeat (Delay 10) n) = 0%nat /\
  acquires (repeat (Delay 10) n) = 0%nat /\
  releases (repeat (Delay 10) n) = 0%nat /\
  sensed (repeat (Delay 10) n) = [] /\
  (forall opened, file_check opened (repeat (Delay 10) n) = Some opened) /\
  (forall on, spi_after on (repeat (Delay 10) n) = on) /\
  (forall high, led_after high (repeat (Delay 10) n) = high) /\
  (forall on, bus_check on (repeat (Delay 10) n) = Some on).
Proof. induction n as [|n IH]; simpl; intuition. Qed.

Lemma wait_slept n : slept (repeat (Delay 10) n) = 10 * Z.of_nat n.
Proof.
  unfold slept. induction n as [|n IH]; [reflexivity|].
  cbn [repeat delays fold_right]. rewrite IH. lia.
Qed.

(** The part of [setup] after the wait for the serial port. *)
Lemma setup_after_wait b g :
  let evs := events_of (setup (no_wait b)) g in
  file_text evs =
    (if negb (log_found b) && log_created b then csv_header ++ crlf else "") /\
  opens evs = (if log_found b then 0%nat else 1%nat) /\
  file_check false evs = Some false /\
  firstn 2 (rev (serial_pieces evs)) = [crlf; csv_header] /\
  (negb (log_found b) && log_created b = true ->
   file_pieces evs = [csv_header; crlf]) /\
  acquires evs = 1%nat /\ releases evs = 2%nat /\
  (forall on, spi_after on evs = false) /\
  slept evs = 5000 /\
  (forall high, led_after high evs = true) /\
  (forall high, led_during_delays high evs = [(true, 5000)]) /\
  bus_check false evs = Some false /\
  globals_after (setup (no_wait b)) g = g /\
  finishes (setup (no_wait b)) g = true.
Proof.
  destruct b as [polls ms rtc running stop start card found created].
  destruct ms, rtc, running, card, found, created;
    eval_prog; cbv zeta;
    repeat match goal with |- _ /\ _ => split end;
    intros; subst; first [discriminate | vm_compute; reflexivity].
Qed.

(** The same facts for [setup] with its wait for the serial port. *)
Lemma setup_facts b g :
  let evs := events_of (setup b) g in
  file_text evs =
    (if negb (log_found b) && log_created b then csv_header ++ crlf else "") /\
  opens evs = (if log_found b then 0%nat else 1%nat) /\
  file_check false evs = Some false /\
  firstn 2 (rev (serial_pieces evs)) = [crlf; csv_header] /\
  (negb (log_found b) && log_created b = true ->
   file_pieces evs = [csv_header; crlf]) /\
  acquires evs = 1%nat /\ releases evs = 2%nat /\
  (forall on, spi_after on evs = false) /\
  slept evs = 5000 + 10 * Z.of_nat (serial_polls b) /\
  (forall high, led_after high evs = true) /\
  (forall high, led_during_delays high evs =
     (repeat (high, 10) (serial_polls b) ++ [(true, 5000)])%list) /\
  bus_check false evs = Some false /\
  globals_after (setup b) g = g /\
  finishes (setup b) g = true.
Proof.
  cbv zeta.
  assert (Hg : globals_after (setup b) g = globals_after (setup (no_wait b)) g /\
               finishes (setup b) g = finishes (setup (no_wait b)) g).
  { unfold globals_after, finishes. rewrite (setup_run b g).
    destruct (setup (no_wait b) g); split; reflexivity. }
  destruct Hg as [-> ->].
  rewrite setup_events.
  rewrite file_text_app, opens_app, file_check_app, serial_pieces_app.
  rewrite acquires_app, releases_app, slept_app, wait_slept, bus_check_app.
  assert (Hfile : forall n l, file_pieces (repeat (Delay 10) n ++ l) = file_pieces l).
  { induction n; simpl; auto. }
  rewrite Hfile.
  destruct (wait_is_silent (serial_polls b))
    as (-> & -> & -> & -> & -> & _ & -> & Hspi & Hled & ->).
  cbn [app Nat.add append].
  destruct (setup_after_wait b g)
    as (-> & -> & -> & -> & Hsame & -> & -> & Hoff & -> & Hhigh & Hduring
        & -> & -> & ->).
  repeat split; try assumption; try lia.
  - intros on. now rewrite spi_after_app, Hspi.
  - intros high. now rewrite led_after_app, Hled.
  - intros high. rewrite led_during_delays_app, Hled, Hduring. f_equal.
    clear. induction (serial_polls b) as [|n IH]; simpl;
      [reflexivity | now rewrite IH].
Qed.

End SetupFacts.

(** X4.  [setup] writes the header line to [datalog.csv] exactly when
    [SD.exists] reports the file missing and the creating [SD.open]
    succeeds, and then it writes nothing else; when the file exists it is
    not opened at all.  In every case the file is closed when [setup]
    ends. *)
Theorem setup_writes_header_once (b : boot) (g : globals) :
  let evs := events_of (setup b) g in
  file_text evs =
    (if negb (log_found b) && log_created b then csv_header ++ crlf else "") /\
  opens evs = (if log_found b then 0%nat else 1%nat) /\
  file_check false evs = Some false.
Proof.
  destruct (setup_facts b g) as (Htext & Hopens & Hcheck & _).
  repeat split; assumption.
Qed.

(** X5.  Whatever the hardware answers, the last thing [setup] prints on
    the console is the CSV header line, the same text it writes to a new
    log file. *)
Theorem setup_console_ends_with_header (b : boot) (g : globals) :
  let evs := events_of (setup b) g in
  firstn 2 (rev (serial_pieces evs)) = [crlf; csv_header] /\
  (negb (log_found b) && log_created b = true ->
   file_pieces evs = [csv_header; crlf]).
Proof.
  destruct (setup_facts b g) as (_ & _ & _ & Hlast & Hsame & _).
  split; assumption.
Qed.

Lemma setup_console_ends_with_header_witness :
  let b := mkBoot 3 true true true 0 0 true false true in
  negb (log_found b) && log_created b = true /\
  file_pieces (events_of (setup b) globals_init) = [csv_header; crlf].
Proof.
  intros b.
  exact (conj eq_refl
           (proj2 (setup_console_ends_with_header b globals_init) eq_refl)).
Defined.

(** X6.  [setup] calls [SPI.begin] once and [SPI.end] twice (the card
    driver switches SPI on by itself the first time), leaves SPI off
    whatever its state was, touches the card only while SPI is on and the
    sensors only while it is off, and leaves the stored SCD41 values as
    they were. *)
Theorem setup_releases_spi (b : boot) (g : globals) :
  let evs := events_of (setup b) g in
  acquires evs = 1%nat /\ releases evs = 2%nat /\
  (forall on, spi_after on evs = false) /\
  bus_check false evs = Some false /\
  globals_after (setup b) g = g.
Proof.
  destruct (setup_facts b g)
    as (_ & _ & _ & _ & _ & Hacq & Hrel & Hoff & _ & _ & _ & Hbus & Hg & _).
  repeat split; assumption.
Qed.

(** X7.  The time [setup] spends in [delay] is the 5000 ms wait for the
    SCD41 plus 10 ms for every poll of the serial port; the LED is on
    during the 5000 ms wait and when [setup] ends, whatever its level was
    before. *)
Theorem setup_waits (b : boot) (g : globals) (high : bool) :
  let evs := events_of (setup b) g in
  slept evs = 5000 + 10 * Z.of_nat (serial_polls b) /\
  led_after high evs = true /\
  led_during_delays high evs =
    (repeat (high, 10) (serial_polls b) ++ [(true, 5000)])%list.
Proof.
  destruct (setup_facts b g)
    as (_ & _ & _ & _ & _ & _ & _ & _ & Hslept & Hled & Hduring & _).
  repeat split; auto.
Qed.

(** ** One pass of [loop] *)

Section PassFacts.

Lemma before_from_open evs : (before_open evs ++ from_open evs)%list = evs.
Proof.
  induction evs as [|e l IH]; [reflexivity|].
  destruct e; simpl; now rewrite ?IH.
Qed.

(** What every pass does before it opens the file. *)
Lemma pass_facts i g :
  let evs := events_of (loop i) g in
  sensed evs =
    ([DHT22; DHT22; UVM30A; MS5611; DS1307; DS18B20; DS18B20; SCD41] ++
     match in_ready i with ScdOk true => [SCD41] | _ => [] end)%list /\
  serial_text (before_open evs) = scd_diagnostics i /\
  opens evs = 1%nat /\
  acquires evs = 1%nat /\
  finishes (loop i) g = negb (in_open i).
Proof.
  pose proof sprintf_overflows as Hover.
  destruct i as [dht_h dht_t uv pm pt pa now probe ready meas opened].
  destruct ready as [rc|[|]]; destruct meas as [mc|m]; destruct opened;
    eval_prog; cbv zeta;
    repeat match goal with |- _ /\ _ => split end;
    intros; subst; unfold scd_diagnostics; cbn [in_ready in_meas in_open];
    repeat match goal with H : (_ =? 0) = _ |- _ => rewrite H end;
    reflexivity.
Qed.

(** A pass whose file does not open. *)
Lemma pass_failed i g :
  in_open i = false ->
  let evs := events_of (loop i) g in
  from_open evs =
    [SdOpen false; SerialPrint "SD Open Fail"; SerialPrint crlf; Delay 5000; SpiEnd] /\
  file_pieces evs = [] /\
  file_text evs = "" /\
  delays evs = [5000] /\
  bus_check false evs = Some false /\
  (forall on, spi_after on evs = false) /\
  releases evs = 1%nat /\
  file_check false evs = Some false /\
  (forall high, led_after high evs = high) /\
  (forall high, led_during_delays high evs = [(high, 5000)]).
Proof.
  destruct i as [dht_h dht_t uv pm pt pa now probe ready meas opened].
  cbn [in_open]. intros ->.
  destruct ready as [rc|[|]]; destruct meas as [mc|m];
    eval_prog; cbv zeta;
    repeat match goal with |- _ /\ _ => split end;
    intros; subst; reflexivity.
Qed.

(** A pass whose file opens: it stops at the [sprintf]. *)
Lemma pass_opened i g :
  in_open i = true ->
  let evs := events_of (loop i) g in
  from_open evs = [SdOpen true] /\
  file_pieces evs = [] /\
  delays evs = [] /\
  releases evs = 0%nat /\
  spi_after false evs = true /\
  file_check false evs = Some true /\
  (forall high, led_after high evs = high).
Proof.
  pose proof sprintf_overflows as Hover.
  destruct i as [dht_h dht_t uv pm pt pa now probe ready meas opened].
  cbn [in_open]. intros ->.
  destruct ready as [rc|[|]]; destruct meas as [mc|m];
    eval_prog; cbv zeta;
    repeat match goal with |- _ /\ _ => split end;
    intros; subst; reflexivity.
Qed.

Lemma pass_failed_finishes i g : in_open i = false -> finishes (loop i) g = true.
Proof.
  intros H. destruct (pass_facts i g) as (_ & _ & _ & _ & ->). now rewrite H.
Qed.

End PassFacts.

(** ** Sequences of passes *)

Section Runs.

Lemma run_cons_finished i rest g :
  finishes (loop i) g = true ->
  events_of (run (i :: rest)) g =
    (events_of (loop i) g ++ events_of (run rest) (globals_after (loop i) g))%list /\
  finishes (run (i :: rest)) g = finishes (run rest) (globals_after (loop i) g).
Proof.
  intros H. cbn [run].
  destruct (bind_finished (loop i) (fun _ => run rest) g H) as (He & _ & Hf).
  split; assumption.
Qed.

Lemma run_cons_stopped i rest g :
  finishes (loop i) g = false ->
  events_of (run (i :: rest)) g = events_of (loop i) g /\
  finishes (run (i :: rest)) g = false.
Proof.
  intros H. cbn [run].
  destruct (bind_stopped (loop i) (fun _ => run rest) g H) as (He & _ & Hf).
  split; assumption.
Qed.

Lemma sketch_events b cycles g :
  events_of (sketch b cycles) g =
  (events_of (setup b) g ++ events_of (run cycles) g)%list.
Proof.
  unfold sketch.
  destruct (setup_facts b g) as (_ & _ & _ & _ & _ & _ & _ & _ & _ & _ & _ & _ & Hg & Hf).
  destruct (bind_finished (setup b) (fun _ => run cycles) g Hf) as (He & _).
  now rewrite He, Hg.
Qed.

(** Passes whose file never opens. *)
Lemma run_failed cycles g :
  Forall (fun c => in_open c = false) cycles ->
  let evs := events_of (run cycles) g in
  finishes (run cycles) g = true /\
  slept evs = 5000 * Z.of_nat (List.length cycles) /\
  acquires evs = List.length cycles /\
  releases evs = List.length cycles /\
  opens evs = List.length cycles /\
  file_text evs = "" /\
  file_check false evs = Some false /\
  bus_check false evs = Some false /\
  (forall high, led_after high evs = high) /\
  (forall high, Forall (fun p => fst p = high) (led_during_delays high evs)).
Proof.
  intros Hall. cbv zeta. revert g.
  induction Hall as [|i rest Hi _ IH]; intros g.
  - repeat split. intros high. constructor.
  - destruct (run_cons_finished i rest g (pass_failed_finishes i g Hi)) as [-> ->].
    rewrite slept_app, acquires_app, releases_app, opens_app, file_text_app.
    rewrite file_check_app, bus_check_app.
    destruct (IH (globals_after (loop i) g))
      as (-> & -> & -> & -> & -> & -> & Hfc & Hbc & Hled & Hdur).
    destruct (pass_facts i g) as (_ & _ & -> & -> & _).
    destruct (pass_failed i g Hi)
      as (_ & _ & -> & Hd & -> & _ & -> & -> & Hled1 & Hdur1).
    unfold slept at 1. rewrite Hd.
    cbn [List.length fold_right append].
    repeat split; try assumption; try lia.
    + intros high. now rewrite led_after_app, Hled1.
    + intros high. rewrite led_during_delays_app, Hdur1, Hled1.
      constructor; [reflexivity | apply Hdur].
Qed.

End Runs.

(** * Properties of the specification *)

(** C1 (bus discipline).  On the readings of scenario A, with the file
    opening, [loop] switches SPI on, opens the file and then runs over
    [tempBuffer] in the [sprintf] of the timestamp.  The pass does not reach
    its [SPI.end]: one acquire stands against no release, and SPI is on
    where the defined behaviour of the pass ends. *)
Theorem bus_left_acquired_at_overflow :
  let i := scenarioA (ScdOk true) (ScdOk scenarioA_reading) in
  let evs := events_of (loop i) globals_init in
  finishes (loop i) globals_init = false /\
  acquires evs = 1%nat /\ releases evs = 0%nat /\
  spi_after false evs = true /\
  last evs SpiEnd = SdOpen true.
Proof. cbv zeta. repeat split; vm_compute; reflexivity. Qed.


(** C3 (scenario A).  On the record of scenario A the timestamp text is
    2024-06-01T12:00:00; storing it overruns [tempBuffer], so the pass is
    undefined from there and has by then appended nothing to the file and
    printed nothing of the line: the line of the scenario is not what the
    defined part of the pass produces. *)
Theorem scenarioA_overflows_tempBuffer (g : globals) :
  let i := scenarioA (ScdOk true) (ScdOk scenarioA_reading) in
  let evs := events_of (loop i) g in
  sprintf_timestamp (in_now i) = "2024-06-01T12:00:00" /\
  sprintf_tempBuffer (in_now i) g = Undefined g [] /\
  finishes (loop i) g = false /\
  file_text evs = "" /\ console_line evs = "" /\
  file_text evs <> scenarioA_line ++ crlf.
Proof.
  cbv zeta. repeat split; try (vm_compute; reflexivity).
  vm_compute. discriminate.
Qed.



(** C6 (open failure).  When [SD.open] fails the pass still runs to its end:
    from the open on it prints SD Open Fail and a line end on the console,
    waits the full 5000 ms and switches SPI off; nothing is printed to the
    file; the bus discipline holds and SPI is off at the end; and the next
    pass starts only after these events. *)
Theorem open_failure_isolated (i : cycle_in) (g : globals) (rest : list cycle_in) :
  in_open i = false ->
  let evs := events_of (loop i) g in
  from_open evs =
    [SdOpen false; SerialPrint "SD Open Fail"; SerialPrint crlf; Delay 5000; SpiEnd] /\
  file_pieces evs = [] /\
  console_line evs = "SD Open Fail" ++ crlf /\
  delays evs = [5000] /\
  bus_check false evs = Some false /\
  (forall on, spi_after on evs = false) /\
  events_of (run (i :: rest)) g =
    (evs ++ events_of (run rest) (globals_after (loop i) g))%list.
Proof.
  intros Hfail evs. subst evs.
  destruct (pass_failed i g Hfail) as (Htail & Hfp & _ & Hd & Hbus & Hspi & _).
  unfold console_line. rewrite Htail.
  repeat split; try assumption.
  apply run_cons_finished, pass_failed_finishes, Hfail.
Qed.

Lemma open_failure_isolated_witness :
  let i := mkCycle (f32_of_Z 40) (f32_of_ratio 215 10) 123
             (f32_of_ratio 101325 100) (f32_of_Z 21) (f32_of_Z 150)
             scenarioA_time (f32_of_ratio 2075 100)
             (ScdOk false) (ScdError 0) false in
  in_open i = false /\
  file_pieces (events_of (loop i) globals_init) = [] /\
  delays (events_of (loop i) globals_init) = [5000].
Proof.
  intros i.
  pose proof (open_failure_isolated i globals_init [] eq_refl)
    as (_ & Hfile & _ & Hdelay & _).
  exact (conj eq_refl (conj Hfile Hdelay)).
Defined.

(** C7 (whole record or none).  On the readings of scenario A, with the
    file opening, the pass runs over [tempBuffer] with the file open: up to
    there it has printed nothing to the file and has not closed it. *)
Theorem file_left_open_at_overflow :
  let i := scenarioA (ScdOk true) (ScdOk scenarioA_reading) in
  let evs := events_of (loop i) globals_init in
  finishes (loop i) globals_init = false /\
  file_check false evs = Some true /\
  file_pieces evs = [] /\
  ~ In FileClose evs.
Proof.
  cbv zeta. repeat split; try (vm_compute; reflexivity).
  vm_compute. intuition discriminate.
Qed.


(** C9 (pacing).  On the readings of scenario A, with the file opening, the
    pass runs over [tempBuffer] before the LED pulse and the waits: no
    [delay] is reached in its defined part. *)
Theorem no_delay_reached_when_open :
  let i := scenarioA (ScdOk true) (ScdOk scenarioA_reading) in
  let evs := events_of (loop i) globals_init in
  finishes (loop i) globals_init = false /\
  delays evs = [] /\
  slept evs = 0.
Proof. cbv zeta. repeat split; vm_compute; reflexivity. Qed.


(** * Further properties *)

(** X8.  Every pass addresses the sensors in the same order: DHT22 twice,
    the UV input, the MS5611, the clock, the DS18B20 twice (request, then
    read) and the SCD41 data-ready call; the SCD41 measurement is read only
    when that call reports data ready without error. *)
Theorem pass_polls_sensors_in_order (i : cycle_in) (g : globals) :
  sensed (events_of (loop i) g) =
    ([DHT22; DHT22; UVM30A; MS5611; DS1307; DS18B20; DS18B20; SCD41] ++
     match in_ready i with ScdOk true => [SCD41] | _ => [] end)%list.
Proof. apply pass_facts. Qed.

(** X9.  What a pass prints on the console before it opens the file is the
    SCD41 diagnostic, if any: SCD4R_ERR: or SCD4M_ERR: with the error code
    in unsigned decimal, printed exactly for a code that is not zero as a
    [uint16_t], the second only when data was ready.  When the file does
    not open, the whole console output of the pass is that diagnostic
    followed by the line SD Open Fail. *)
Theorem pass_console_output (i : cycle_in) (g : globals) :
  let evs := events_of (loop i) g in
  serial_text (before_open evs) = scd_diagnostics i /\
  (in_open i = false ->
   serial_text evs = scd_diagnostics i ++ "SD Open Fail" ++ crlf).
Proof.
  intros evs. subst evs.
  destruct (pass_facts i g) as (_ & Hdiag & _).
  split; [exact Hdiag|]. intros Hfail.
  rewrite <- (before_from_open (events_of (loop i) g)) at 1.
  rewrite serial_text_app, Hdiag.
  destruct (pass_failed i g Hfail) as (-> & _). reflexivity.
Qed.

Lemma pass_console_output_witness :
  let i := mkCycle (f32_of_Z 40) (f32_of_ratio 215 10) 123
             (f32_of_ratio 101325 100) (f32_of_Z 21) (f32_of_Z 150)
             scenarioA_time (f32_of_ratio 2075 100)
             (ScdError (-1)) (ScdError 0) false in
  in_open i = false /\
  serial_text (events_of (loop i) globals_init) =
    "SCD4R_ERR:65535" ++ crlf ++ "SD Open Fail" ++ crlf.
Proof.
  intros i.
  exact (conj eq_refl (proj2 (pass_console_output i globals_init) eq_refl)).
Defined.

(** X12.  A pass whose file does not open does not touch the LED: it keeps
    its level through the 5000 ms wait.  After [setup] and any number of
    such passes the LED is high, and it is high during every wait of those
    passes. *)
Theorem led_stays_on_while_open_fails (b : boot) (cycles : list cycle_in)
        (g : globals) (high : bool) :
  Forall (fun c => in_open c = false) cycles ->
  led_after high (events_of (run cycles) g) = high /\
  led_after high (events_of (sketch b cycles) g) = true /\
  Forall (fun p => fst p = true)
    (led_during_delays true (events_of (run cycles) g)).
Proof.
  intros Hall.
  destruct (run_failed cycles g Hall)
    as (_ & _ & _ & _ & _ & _ & _ & _ & Hled & Hdur).
  repeat split; auto.
  rewrite sketch_events, led_after_app, Hled.
  apply (setup_facts b g).
Qed.

Lemma led_stays_on_while_open_fails_witness :
  let b := mkBoot 3 true true true 0 0 true false true in
  Forall (fun c => in_open c = false) [scenarioD; scenarioD] /\
  led_after false (events_of (sketch b [scenarioD; scenarioD]) globals_init) = true.
Proof.
  intros b.
  assert (H : Forall (fun c => in_open c = false) [scenarioD; scenarioD])
    by (repeat constructor).
  exact (conj H (proj1 (proj2
           (led_stays_on_while_open_fails b _ globals_init false H)))).
Defined.

(** X13.  [n] passes whose file does not open all run to their end; they
    spend [n] times 5000 ms in [delay], call [SPI.begin] and [SPI.end] [n]
    times each, try to open the log file [n] times and keep the bus
    discipline, whatever the sensors answer. *)
Theorem run_time_and_balance (cycles : list cycle_in) (g : globals) :
  Forall (fun c => in_open c = false) cycles ->
  let evs := events_of (run cycles) g in
  finishes (run cycles) g = true /\
  slept evs = 5000 * Z.of_nat (List.length cycles) /\
  acquires evs = List.length cycles /\
  releases evs = List.length cycles /\
  opens evs = List.length cycles /\
  bus_check false evs = Some false.
Proof.
  intros Hall evs. subst evs.
  destruct (run_failed cycles g Hall)
    as (Hf & Hs & Ha & Hr & Ho & _ & _ & Hb & _).
  repeat split; assumption.
Qed.

Lemma run_time_and_balance_witness :
  Forall (fun c => in_open c = false) [scenarioD; scenarioD; scenarioD] /\
  slept (events_of (run [scenarioD; scenarioD; scenarioD]) globals_init) =
    5000 * Z.of_nat 3.
Proof.
  assert (H : Forall (fun c => in_open c = false) [scenarioD; scenarioD; scenarioD])
    by (repeat constructor).
  exact (conj H (proj1 (proj2 (run_time_and_balance _ globals_init H)))).
Defined.

(** X15.  Over [setup] and any number of passes whose file does not open,
    the log file is used correctly (never opened twice, printed to and
    closed only while open, closed at the end), and all it receives is the
    header line, when [setup] had to create the file and could. *)
Theorem sketch_log_file (b : boot) (cycles : list cycle_in) (g : globals) :
  Forall (fun c => in_open c = false) cycles ->
  let evs := events_of (sketch b cycles) g in
  finishes (sketch b cycles) g = true /\
  file_check false evs = Some false /\
  file_text evs =
    (if negb (log_found b) && log_created b then csv_header ++ crlf else "").
Proof.
  intros Hall evs. subst evs.
  destruct (setup_facts b g)
    as (Htext & _ & Hcheck & _ & _ & _ & _ & _ & _ & _ & _ & _ & Hg & Hf).
  destruct (run_failed cycles g Hall) as (Hrun & _ & _ & _ & _ & Hft & Hfc & _).
  rewrite sketch_events, file_check_app, file_text_app, Hcheck, Htext, Hft, Hfc.
  unfold sketch.
  destruct (bind_finished (setup b) (fun _ => run cycles) g Hf) as (_ & _ & ->).
  rewrite Hg, Hrun, append_nil_r. repeat split.
Qed.

Lemma sketch_log_file_witness :
  let b := mkBoot 3 true true true 0 0 true false true in
  Forall (fun c => in_open c = false) [scenarioD; scenarioD] /\
  file_text (events_of (sketch b [scenarioD; scenarioD]) globals_init) =
    csv_header ++ crlf.
Proof.
  intros b.
  assert (H : Forall (fun c => in_open c = false) [scenarioD; scenarioD])
    by (repeat constructor).
  exact (conj H (proj2 (proj2 (sketch_log_file b _ globals_init H)))).
Defined.

(** X18.  A pass of [loop] runs to its end exactly when [SD.open] fails.
    When the file opens, the [sprintf] of the timestamp overruns
    [tempBuffer] whatever the clock says: the pass is undefined from there,
    with SPI on and the file open, having printed nothing to the file,
    waited for nothing and not called [SPI.end]; the passes after it are
    not reached in defined behaviour. *)
Theorem open_pass_overflows (i : cycle_in) (g : globals) (rest : list cycle_in) :
  finishes (loop i) g = negb (in_open i) /\
  (in_open i = true ->
   let evs := events_of (loop i) g in
   from_open evs = [SdOpen true] /\
   file_pieces evs = [] /\
   delays evs = [] /\
   acquires evs = 1%nat /\ releases evs = 0%nat /\
   spi_after false evs = true /\
   file_check false evs = Some true /\
   events_of (run (i :: rest)) g = evs /\
   finishes (run (i :: rest)) g = false).
Proof.
  destruct (pass_facts i g) as (_ & _ & _ & Hacq & Hfin).
  split; [exact Hfin|]. intros Hopen evs. subst evs.
  destruct (pass_opened i g Hopen) as (Hfrom & Hfp & Hd & Hrel & Hspi & Hfc & _).
  rewrite Hopen in Hfin.
  destruct (run_cons_stopped i rest g Hfin) as [He Hf].
  repeat split; assumption.
Qed.

Lemma open_pass_overflows_witness :
  let i := scenarioA (ScdOk true) (ScdOk scenarioA_reading) in
  in_open i = true /\
  releases (events_of (loop i) globals_init) = 0%nat /\
  file_check false (events_of (loop i) globals_init) = Some true.
Proof.
  intros i.
  pose proof (proj2 (open_pass_overflows i globals_init []) eq_refl)
    as (_ & _ & _ & _ & Hrel & _ & Hfc & _).
  exact (conj eq_refl (conj Hrel Hfc)).
Defined.
